(** * top_cache: mint-delay caching on top of Django's cache

    A shallow embedding of [src/top_cache.py]:
    - [hashlib]: the MD5 digest the decorator applies to the key body;
    - [pyval]: the Python objects that flow through the cache;
    - [cache]: Django's cache backend, the external store;
    - [top_cache]: [set], [get] and the [top_cache] decorator's
      [func_wrapper], written in a small state-and-exception monad. *)

From Stdlib Require Import ZArith String Ascii List Bool Lia.
From stdpp Require Import base option list strings pretty gmap fin_maps.

Set Warnings "-register-all".
Local Open Scope Z_scope.

(** ** hashlib.md5 (RFC 1321) over 32-bit words held in [Z] *)
Module hashlib.

Definition mask32 : Z := 0xFFFFFFFF.
Definition add32 (x y : Z) : Z := Z.land (x + y) mask32.
Definition not32 (x : Z) : Z := Z.lxor x mask32.
Definition rotl32 (x s : Z) : Z :=
  Z.land (Z.lor (Z.shiftl x s) (Z.shiftr x (32 - s))) mask32.

Definition K : list Z :=
  [0xd76aa478; 0xe8c7b756; 0x242070db; 0xc1bdceee;
   0xf57c0faf; 0x4787c62a; 0xa8304613; 0xfd469501;
   0x698098d8; 0x8b44f7af; 0xffff5bb1; 0x895cd7be;
   0x6b901122; 0xfd987193; 0xa679438e; 0x49b40821;
   0xf61e2562; 0xc040b340; 0x265e5a51; 0xe9b6c7aa;
   0xd62f105d; 0x02441453; 0xd8a1e681; 0xe7d3fbc8;
   0x21e1cde6; 0xc33707d6; 0xf4d50d87; 0x455a14ed;
   0xa9e3e905; 0xfcefa3f8; 0x676f02d9; 0x8d2a4c8a;
   0xfffa3942; 0x8771f681; 0x6d9d6122; 0xfde5380c;
   0xa4beea44; 0x4bdecfa9; 0xf6bb4b60; 0xbebfbc70;
   0x289b7ec6; 0xeaa127fa; 0xd4ef3085; 0x04881d05;
   0xd9d4d039; 0xe6db99e5; 0x1fa27cf8; 0xc4ac5665;
   0xf4292244; 0x432aff97; 0xab9423a7; 0xfc93a039;
   0x655b59c3; 0x8f0ccc92; 0xffeff47d; 0x85845dd1;
   0x6fa87e4f; 0xfe2ce6e0; 0xa3014314; 0x4e0811a1;
   0xf7537e82; 0xbd3af235; 0x2ad7d2bb; 0xeb86d391].

Definition S : list Z :=
  [7; 12; 17; 22; 7; 12; 17; 22; 7; 12; 17; 22; 7; 12; 17; 22;
   5; 9; 14; 20; 5; 9; 14; 20; 5; 9; 14; 20; 5; 9; 14; 20;
   4; 11; 16; 23; 4; 11; 16; 23; 4; 11; 16; 23; 4; 11; 16; 23;
   6; 10; 15; 21; 6; 10; 15; 21; 6; 10; 15; 21; 6; 10; 15; 21].

Definition nthZ (l : list Z) (i : nat) : Z := nth i l 0.

(** The 128-bit chaining state, as the four words A, B, C, D. *)
Record state := State { sA : Z; sB : Z; sC : Z; sD : Z }.

Definition init : state :=
  State 0x67452301 0xefcdab89 0x98badcfe 0x10325476.

(** Step [i] (0..63) of the compression function on block words [M]. *)
Definition step (M : list Z) (st : state) (i : nat) : state :=
  let '(State a b c d) := st in
  let '(f, g) :=
    match (i / 16)%nat with
    | 0%nat => (Z.lor (Z.land b c) (Z.land (not32 b) d), i)
    | 1%nat => (Z.lor (Z.land d b) (Z.land (not32 d) c), ((5 * i + 1) mod 16)%nat)
    | 2%nat => (Z.lxor (Z.lxor b c) d, ((3 * i + 5) mod 16)%nat)
    | _ => (Z.lxor c (Z.lor b (not32 d)), ((7 * i) mod 16)%nat)
    end in
  let f' := add32 (add32 (add32 f a) (nthZ K i)) (nthZ M g) in
  State d (add32 b (rotl32 f' (nthZ S i))) b c.

Definition compress (st : state) (M : list Z) : state :=
  let st' := fold_left (step M) (seq 0 64) st in
  State (add32 (sA st) (sA st')) (add32 (sB st) (sB st'))
        (add32 (sC st) (sC st')) (add32 (sD st) (sD st')).

(** Little-endian bytes of a word, and back. *)
Definition le_bytes (n : nat) (w : Z) : list Z :=
  map (fun k => Z.land (Z.shiftr w (8 * Z.of_nat k)) 0xFF) (seq 0 n).

Fixpoint le_word (bs : list Z) : Z :=
  match bs with
  | [] => 0
  | b :: bs' => b + 256 * le_word bs'
  end.

Fixpoint words (n : nat) (bs : list Z) : list Z :=
  match n with
  | O => []
  | Datatypes.S n' => le_word (take 4 bs) :: words n' (drop 4 bs)
  end.

(** Message padding: 0x80, zeros up to 56 mod 64, then the bit length. *)
Definition pad (msg : list Z) : list Z :=
  let len := Z.of_nat (List.length msg) in
  let zeros := Z.to_nat ((55 - len) mod 64) in
  msg ++ 0x80 :: repeat 0 zeros ++ le_bytes 8 (Z.land (8 * len) 0xFFFFFFFFFFFFFFFF).

Fixpoint blocks (n : nat) (bs : list Z) : list (list Z) :=
  match n with
  | O => []
  | Datatypes.S n' => words 16 (take 64 bs) :: blocks n' (drop 64 bs)
  end.

Definition digest_state (msg : list Z) : state :=
  let p := pad msg in
  fold_left compress (blocks (List.length p / 64) p) init.

Definition digest_bytes (st : state) : list Z :=
  le_bytes 4 (sA st) ++ le_bytes 4 (sB st) ++ le_bytes 4 (sC st) ++ le_bytes 4 (sD st).

Definition hexchar (n : Z) : ascii :=
  match n with
  | 0 => "0" | 1 => "1" | 2 => "2" | 3 => "3" | 4 => "4" | 5 => "5"
  | 6 => "6" | 7 => "7" | 8 => "8" | 9 => "9" | 10 => "a" | 11 => "b"
  | 12 => "c" | 13 => "d" | 14 => "e" | _ => "f"
  end%char.

Fixpoint hex (bs : list Z) : string :=
  match bs with
  | [] => EmptyString
  | b :: bs' => String (hexchar (Z.shiftr b 4)) (String (hexchar (Z.land b 0xF)) (hex bs'))
  end.

Definition bytes_of_string (s : string) : list Z :=
  map (fun c => Z.of_N (N_of_ascii c)) (list_ascii_of_string s).

(** [hashlib.md5(s).hexdigest()] *)
Definition md5_hexdigest (s : string) : string :=
  hex (digest_bytes (digest_state (bytes_of_string s))).

End hashlib.

(** ** Python objects

    The objects that reach the cache layer: the values a wrapped function
    takes and returns, and whatever payload the store hands back. *)
Inductive pyval :=
| VNone
| VBool (b : bool)
| VInt (n : Z)
| VStr (s : string)
| VDateTime (t : Z)            (* a [datetime], as seconds on the clock *)
| VTuple (items : list pyval)
| VList (items : list pyval)
| VObj (cls : string) (text : string)   (* instance of a user class, with its [str] *)
| VCustom (cls : string) (text : string) (truth : bool)
          (items : option (list pyval)) (gt : option (Z → bool)).

(** [VObj] is an instance of a class that defines no truth value, no
    iteration and no ordering of its own. [VCustom] is an instance of a class
    that does (a dict, a deque, a set, a QuerySet, a user container): [truth]
    is what [__nonzero__] or [__len__] make of it, [items] what iterating it
    yields when it is iterable, and [gt], when a [datetime] can be ordered
    against it, what [now > obj] comes to at each instant [now]. *)

(** Truth value testing, as used by [if x:] and [not x]. *)
Definition truthy (v : pyval) : bool :=
  match v with
  | VNone => false
  | VBool b => b
  | VInt n => negb (n =? 0)
  | VStr s => negb (String.length s =? 0)%nat
  | VDateTime _ => true
  | VTuple items | VList items => negb (List.length items =? 0)%nat
  | VObj _ _ => true
  | VCustom _ _ truth _ _ => truth
  end.

(** [v.__class__.__name__] *)
Definition class_name (v : pyval) : string :=
  match v with
  | VNone => "NoneType"
  | VBool _ => "bool"
  | VInt _ => "int"
  | VStr _ => "str"
  | VDateTime _ => "datetime"
  | VTuple _ => "tuple"
  | VList _ => "list"
  | VObj cls _ => cls
  | VCustom cls _ _ _ _ => cls
  end.

(** The items an object yields when iterated, if it is iterable. *)
Definition iter_items (v : pyval) : option (list pyval) :=
  match v with
  | VTuple items | VList items => Some items
  | VStr s => Some (map (fun c => VStr (String c EmptyString)) (list_ascii_of_string s))
  | VCustom _ _ _ items _ => items
  | _ => None
  end.

(** ** The world: a clock, the store, and what has been done to them

    Time is counted in seconds. One operation of the module runs at one
    instant: the clock moves only between operations ([advance]). *)
Inductive exn := TypeError | ValueError.

Inductive outcome (A : Type) :=
| Ret (a : A)
| Raise (e : exn).
Arguments Ret {A} a.
Arguments Raise {A} e.

Record world := World {
  clock : Z;                                  (* what [datetime.datetime.now()] reads *)
  entries : gmap string (pyval * Z);          (* store: payload, instant of expiry *)
  store_writes : list (string * pyval * Z);   (* each [cache.set]: key, payload, timeout *)
  calls : list (list pyval * list (string * pyval))  (* runs of the wrapped function *)
}.

(** Computations read and update the world and may raise. *)
Definition M (A : Type) : Type := world -> outcome A * world.

Definition ret {A} (a : A) : M A := fun w => (Ret a, w).
Definition raise {A} (e : exn) : M A := fun w => (Raise e, w).
Definition bind {A B} (m : M A) (k : A -> M B) : M B := fun w =>
  match m w with
  | (Ret a, w') => k a w'
  | (Raise e, w') => (Raise e, w')
  end.

#[global] Instance M_ret : MRet M := @ret.
#[global] Instance M_bind : MBind M := fun A B k m => bind m k.

(** Time passing between two operations. *)
Definition advance (d : Z) (w : world) : world :=
  World (clock w + d) (entries w) (store_writes w) (calls w).

Definition datetime_now : M Z := fun w => (Ret (clock w), w).

(** How a [datetime] orders against an object, if it does: another
    [datetime] by its instant, an object that brings its own comparison by
    that; against everything else the comparison raises. *)
Definition order_against (other : pyval) : option (Z → bool) :=
  match other with
  | VDateTime t => Some (λ now, t <? now)
  | VCustom _ _ _ _ gt => gt
  | _ => None
  end.

(** [now > other] for a [datetime] [now]. *)
Definition datetime_gt (now : Z) (other : pyval) : M bool :=
  match order_against other with
  | Some gt => ret (gt now)
  | None => raise TypeError
  end.

(** [a, b, c = v] *)
Definition unpack3 (v : pyval) : M (pyval * pyval * pyval) :=
  match iter_items v with
  | None => raise TypeError
  | Some [a; b; c] => ret (a, b, c)
  | Some _ => raise ValueError
  end.

(** ** django.core.cache.cache

    The external store, after Django's local-memory backend: [set] records
    the payload with the instant [now + timeout] at which it expires, [get]
    answers the payload while that instant lies ahead and [None] otherwise. *)
Module cache.

Definition set (key : string) (value : pyval) (timeout : Z) : M pyval := fun w =>
  (Ret VNone,
   World (clock w)
         (<[key := (value, clock w + timeout)]> (entries w))
         (store_writes w ++ [(key, value, timeout)])
         (calls w)).

(** The payload a key shows at the present instant, [None] if there is none. *)
Definition visible (key : string) (w : world) : pyval :=
  match entries w !! key with
  | Some (payload, expires) => if clock w <? expires then payload else VNone
  | None => VNone
  end.

Definition get (key : string) : M pyval := fun w => (Ret (visible key w), w).

End cache.

(** A wrapped function: its [__name__] and what a call returns. *)
Record pyfunc := PyFunc {
  func_name : string;
  func_body : list pyval -> list (string * pyval) -> pyval
}.

Definition call (func : pyfunc) (args : list pyval) (kwargs : list (string * pyval)) : M pyval :=
  fun w =>
    (Ret (func_body func args kwargs),
     World (clock w) (entries w) (store_writes w) (calls w ++ [(args, kwargs)])).

(** [django.conf.settings], as far as this module reads it. *)
Record Settings := { settings_MINT_DELAY : option Z }.

(** ** top_cache.py *)
Module top_cache.

Definition DEFAULT_TIMEOUT : Z := 60 * 3.

Section with_settings.
Variable settings : Settings.
(** [format(arg, '')], which [str.format] applies to each field. *)
Variable format : pyval -> string.

Definition MINT_DELAY : Z :=
  match settings_MINT_DELAY settings with
  | Some d => d
  | None => 30
  end.

Definition set (cache_key : string) (value : pyval) (timeout : Z) (refreshed : bool)
  : M pyval :=
  now ← datetime_now;
  let refresh_time := VDateTime (now + timeout) in
  let mint_timeout := timeout + MINT_DELAY in
  let packed_value := VTuple [value; refresh_time; VBool refreshed] in
  cache.set cache_key packed_value mint_timeout.

Definition get (cache_key : string) : M pyval :=
  packed_value ← cache.get cache_key;
  if negb (truthy packed_value) then ret VNone else
  '(value, refresh_time, refreshed) ← unpack3 packed_value;
  now ← datetime_now;
  stale ← datetime_gt now refresh_time;
  if stale && negb (truthy refreshed) then
    set cache_key value MINT_DELAY true;;
    ret VNone
  else ret value.

(** The key before hashing (lines 74-88 of [func_wrapper]). *)
Definition add_arg (cache_key : string) (arg : pyval) : string :=
  cache_key +:+ "_" +:+ format arg.

Definition add_kwarg (cache_key : string) (kv : string * pyval) : string :=
  cache_key +:+ "_" +:+ fst kv +:+ "=" +:+ format (snd kv).

Definition key_body (decorates_method : bool) (name : string)
           (args : list pyval) (kwargs : list (string * pyval)) : string :=
  let cache_key := name in
  let cache_key_args := args in
  let '(cache_key, cache_key_args) :=
    match args with
    | self :: rest =>
        if decorates_method
        then (class_name self +:+ "_" +:+ cache_key, rest)
        else (cache_key, cache_key_args)
    | [] => (cache_key, cache_key_args)
    end in
  let cache_key := fold_left add_arg cache_key_args cache_key in
  fold_left add_kwarg kwargs cache_key.

Definition derive_key (decorates_method : bool) (name : string)
           (args : list pyval) (kwargs : list (string * pyval)) : string :=
  hashlib.md5_hexdigest (key_body decorates_method name args kwargs).

Definition func_wrapper (timeout : Z) (decorates_method : bool) (func : pyfunc)
           (args : list pyval) (kwargs : list (string * pyval)) : M pyval :=
  let cache_key := derive_key decorates_method (func_name func) args kwargs in
  rtn ← get cache_key;
  if truthy rtn then ret rtn else
  rtn ← call func args kwargs;
  set cache_key rtn timeout false;;
  ret rtn.

End with_settings.

End top_cache.

(** ** Concrete settings, formatting and worlds used in examples *)

(** No [MINT_DELAY] in the Django settings: the default of 30 applies. *)
Definition default_settings : Settings := {| settings_MINT_DELAY := None |}.

(** [str] of the scalar objects (containers and datetimes, whose [str] is
    built from [repr] and the calendar, are not rendered). *)
Definition str_scalar (v : pyval) : string :=
  match v with
  | VNone => "None"
  | VBool b => if b then "True" else "False"
  | VInt n => pretty n
  | VStr s => s
  | VObj _ text => text
  | VCustom _ text _ _ _ => text
  | _ => ""
  end.

Definition empty_world : world := World 0 ∅ [] [].

(** What a store-level [retrieve] sees. *)
Definition retrieve (key : string) (w : world) : outcome pyval := fst (cache.get key w).

(** The spec's scenario: [put("k", "v1", 60)], then 61 seconds pass. *)
Definition scenario_put : world :=
  snd (top_cache.set default_settings "k" (VStr "v1") 60 false empty_world).
Definition scenario_stale : world := advance 61 scenario_put.
Definition scenario_flagged : world :=
  snd (top_cache.get default_settings "k" scenario_stale).

(** The same scenario forty seconds after staleness was first detected: the
    placeholder's own logical expiry (at 91) has passed, the store still
    holds it (until 121). *)
Definition scenario_waiting : world := advance 40 scenario_flagged.



(** A wrapped function whose result is falsy: it counts, and finds nothing. *)
Definition count_func : pyfunc := PyFunc "count" (λ _ _, VInt 0).

(** [count()] called once, through [@top_cache(timeout=180)], on an empty store. *)
Definition count_called_once : world :=
  snd (top_cache.func_wrapper default_settings str_scalar 180 false
         count_func [] [] empty_world).

(** A sequence of reads of one key, each after some time has passed. *)
Fixpoint later_gets (settings : Settings) (key : string) (delays : list Z) (w : world)
  : list (outcome pyval) * world :=
  match delays with
  | [] => ([], w)
  | d :: ds =>
      let '(r, w') := top_cache.get settings key (advance d w) in
      let '(rs, w'') := later_gets settings key ds w' in
      (r :: rs, w'')
  end.

Definition total (delays : list Z) : Z := fold_right Z.add 0 delays.



(** The characters of a lower-case hexadecimal string. *)
Definition hexdigits : list ascii := list_ascii_of_string "0123456789abcdef".
Definition is_hexdigit (c : ascii) : bool := existsb (Ascii.eqb c) hexdigits.

(** An entry as [top_cache.set] writes it: a tuple of value, logical expiry
    and flag, due to leave the store [md] seconds after its logical expiry. *)
Definition written_by_set (md : Z) (pe : pyval * Z) : bool :=
  match pe with
  | (VTuple [_; VDateTime t; VBool _], expires) => expires =? t + md
  | _ => false
  end.

(** The store holds nothing but entries that [top_cache.set] wrote. *)
Definition store_inv (settings : Settings) (w : world) : Prop :=
  map_Forall (λ _ pe, written_by_set (top_cache.MINT_DELAY settings) pe = true)
             (entries w).

(** The arguments of a call as they appear in the key body, one after the
    other, each behind its underscore. *)
Definition rendered_args (format : pyval → string) (args : list pyval) : string :=
  fold_right (λ arg s, "_" +:+ format arg +:+ s) "" args.

Definition rendered_kwargs (format : pyval → string) (kwargs : list (string * pyval))
  : string :=
  fold_right (λ kv s, "_" +:+ fst kv +:+ "=" +:+ format (snd kv) +:+ s) "" kwargs.

(** A wrapped function whose result is truthy. *)
Definition answer_func : pyfunc := PyFunc "answer" (λ _ _, VInt 42).

(** * Properties *)

Example md5_empty : hashlib.md5_hexdigest "" = "d41d8cd98f00b204e9800998ecf8427e"%string.
Proof. vm_compute. reflexivity. Qed.

Example md5_abc : hashlib.md5_hexdigest "abc" = "900150983cd24fb0d6963f7d28e17f72"%string.
Proof. vm_compute. reflexivity. Qed.

Example md5_key : hashlib.md5_hexdigest "Foo_my_func_1_2_x=3" = "b81d243162d27d38f278369a8167c904"%string.
Proof. vm_compute. reflexivity. Qed.

Example md5_two_blocks :
  hashlib.md5_hexdigest "aaaaaaaaaaaaaaaaaaaaaaaaaaaaaaaaaaaaaaaaaaaaaaaaaaaaaaaa"
  = "3b0c8ac703f828b04c6c197006d17218"%string.
Proof. vm_compute. reflexivity. Qed.

Example scenario_first_fetch :
  top_cache.get default_settings "k" scenario_put = (Ret (VStr "v1"), scenario_put).
Proof. reflexivity. Qed.

Example scenario_stale_fetch :
  fst (top_cache.get default_settings "k" scenario_stale) = Ret VNone
  ∧ retrieve "k" scenario_flagged
    = Ret (VTuple [VStr "v1"; VDateTime 91; VBool true]).
Proof. split; reflexivity. Qed.

Section guard.
Variable settings : Settings.
Abbreviation MINT_DELAY := (top_cache.MINT_DELAY settings).
Abbreviation set := (top_cache.set settings).
Abbreviation get := (top_cache.get settings).

Lemma cache_get_world key w : cache.get key w = (retrieve key w, w).
Proof. reflexivity. Qed.

(** What [get] does once the store has answered a three-item tuple. *)
Lemma get_entry key w value t refreshed :
  retrieve key w = Ret (VTuple [value; VDateTime t; refreshed]) →
  get key w =
    if (t <? clock w) && negb (truthy refreshed)
    then (Ret VNone, snd (set key value MINT_DELAY true w))
    else (Ret value, w).
Proof.
  intros Hget. unfold top_cache.get, mbind, M_bind, bind.
  rewrite cache_get_world, Hget. cbn.
  destruct (t <? clock w), (truthy refreshed); reflexivity.
Qed.

(** The world [set] leaves behind. *)
Lemma set_world key value timeout refreshed w :
  set key value timeout refreshed w =
    (Ret VNone,
     World (clock w)
           (<[key := (VTuple [value; VDateTime (clock w + timeout); VBool refreshed],
                      clock w + (timeout + MINT_DELAY))]> (entries w))
           (store_writes w
              ++ [(key, VTuple [value; VDateTime (clock w + timeout); VBool refreshed],
                   timeout + MINT_DELAY)])
           (calls w)).
Proof. reflexivity. Qed.

Lemma retrieve_after_set key value timeout refreshed w d :
  retrieve key (advance d (snd (set key value timeout refreshed w))) =
    Ret (if d <? timeout + MINT_DELAY
         then VTuple [value; VDateTime (clock w + timeout); VBool refreshed]
         else VNone).
Proof.
  rewrite set_world. unfold retrieve, cache.get, cache.visible, advance. cbn.
  rewrite lookup_insert_eq.
  destruct (d <? timeout + MINT_DELAY) eqn:Hd.
  - apply Z.ltb_lt in Hd. rewrite (proj2 (Z.ltb_lt _ _)) by lia. reflexivity.
  - apply Z.ltb_ge in Hd. rewrite (proj2 (Z.ltb_ge _ _)) by lia. reflexivity.
Qed.

Lemma retrieve_live key w payload expires :
  entries w !! key = Some (payload, expires) →
  clock w < expires →
  retrieve key w = Ret payload.
Proof.
  intros Hk Hlt. unfold retrieve, cache.get, cache.visible. cbn. rewrite Hk.
  rewrite (proj2 (Z.ltb_lt _ _)) by assumption. reflexivity.
Qed.

Lemma advance_0 w : advance 0 w = w.
Proof. destruct w. unfold advance. cbn. f_equal. lia. Qed.

Lemma advance_advance d1 d2 w : advance d2 (advance d1 w) = advance (d1 + d2) w.
Proof. unfold advance. cbn. f_equal. lia. Qed.

Lemma total_nonneg delays : Forall (λ d, 0 <= d) delays → 0 <= total delays.
Proof. induction 1; unfold total in *; cbn; lia. Qed.

(** Reads of a live entry whose flag is set hand back its value and leave
    the world as it is, however its logical expiry compares to the clock. *)
Lemma later_gets_flagged key value t expires delays : ∀ w,
  entries w !! key = Some (VTuple [value; VDateTime t; VBool true], expires) →
  Forall (λ d, 0 <= d) delays →
  clock w + total delays < expires →
  later_gets settings key delays w
  = (map (λ _, Ret value) delays, advance (total delays) w).
Proof.
  induction delays as [|d ds IH]; intros w Hk Hpos Hlt.
  - cbn. by rewrite advance_0.
  - inversion Hpos as [|? ? Hd Hds]; subst.
    change (total (d :: ds)) with (d + total ds) in *.
    pose proof (total_nonneg ds Hds) as Hds0.
    assert (retrieve key (advance d w)
            = Ret (VTuple [value; VDateTime t; VBool true])) as Hr.
    { apply retrieve_live with expires; [exact Hk | cbn; lia]. }
    cbn [later_gets]. rewrite (get_entry _ _ _ _ _ Hr).
    replace ((t <? clock (advance d w)) && negb (truthy (VBool true))) with false
      by (cbn; by rewrite andb_false_r).
    rewrite (IH (advance d w)); [| exact Hk | exact Hds | cbn; lia].
    cbn. by rewrite advance_advance.
Qed.

(** After the first detection of staleness the store holds the placeholder. *)
Lemma first_detection_world key w value t :
  retrieve key w = Ret (VTuple [value; VDateTime t; VBool false]) →
  t < clock w →
  entries (snd (get key w)) !! key
  = Some (VTuple [value; VDateTime (clock w + MINT_DELAY); VBool true],
          clock w + (MINT_DELAY + MINT_DELAY))
  ∧ clock (snd (get key w)) = clock w.
Proof.
  intros Hr Hlt. rewrite (get_entry _ _ _ _ _ Hr).
  rewrite (proj2 (Z.ltb_lt _ _)) by assumption. cbn [truthy negb andb snd].
  rewrite set_world. cbn. split; [apply lookup_insert_eq | reflexivity].
Qed.

(** C1 (amended). For every key holding an entry whose logical expiry has
    passed ([now > logical_expiry]) and whose refreshed flag is true,
    [get key] returns the stored value, not absent, and leaves the world,
    and with it the record of store writes, untouched. *)
Theorem get_stale_refreshed_returns_value key w value t :
  retrieve key w = Ret (VTuple [value; VDateTime t; VBool true]) →
  t < clock w →
  get key w = (Ret value, w).
Proof.
  intros Hr _. rewrite (get_entry _ _ _ _ _ Hr). cbn.
  by rewrite andb_false_r.
Qed.

(** C2. For every key holding an entry whose logical expiry has passed and
    whose refreshed flag is false, [get key] does exactly what
    [set key value MINT_DELAY True] does to the world (the same value is
    written again, with logical expiry [now + MINT_DELAY] and the flag set)
    and returns [None] to the caller. *)
Theorem get_stale_unrefreshed_rewrites key w value t :
  retrieve key w = Ret (VTuple [value; VDateTime t; VBool false]) →
  t < clock w →
  get key w = (Ret VNone, snd (set key value MINT_DELAY true w))
  ∧ store_writes (snd (get key w))
    = store_writes w
      ++ [(key, VTuple [value; VDateTime (clock w + MINT_DELAY); VBool true],
           MINT_DELAY + MINT_DELAY)].
Proof.
  intros Hr Hlt. rewrite (get_entry _ _ _ _ _ Hr).
  rewrite (proj2 (Z.ltb_lt _ _)) by assumption. cbn [truthy negb andb].
  split; reflexivity.
Qed.

(** C3. For every key, value and ttl with [ttl > 0], a [get key] right after
    [set key value ttl] (the clock has not moved) returns exactly [value]. *)
Theorem get_after_set_fresh key value ttl w :
  0 < ttl →
  0 <= MINT_DELAY →
  get key (snd (set key value ttl false w))
  = (Ret value, snd (set key value ttl false w)).
Proof.
  intros Httl Hmd.
  assert (retrieve key (snd (set key value ttl false w))
          = Ret (VTuple [value; VDateTime (clock w + ttl); VBool false])) as Hr.
  { rewrite set_world. apply retrieve_live with (clock w + (ttl + MINT_DELAY)).
    - cbn. apply lookup_insert_eq.
    - cbn. lia. }
  rewrite (get_entry _ _ _ _ _ Hr). rewrite set_world at 1. cbn [clock snd].
  rewrite (proj2 (Z.ltb_ge _ _)) by lia. reflexivity.
Qed.

(** C4 (amended). The placeholder that [get] writes on first detecting
    staleness goes through [set] with timeout [MINT_DELAY], so the store
    receives it with a physical TTL of [MINT_DELAY + MINT_DELAY]: a
    store-level retrieve [d] seconds after the detection still returns the
    placeholder while [d < 2 * MINT_DELAY] and returns absent from then on. *)
Theorem placeholder_physical_ttl key w value t d :
  retrieve key w = Ret (VTuple [value; VDateTime t; VBool false]) →
  t < clock w →
  store_writes (snd (get key w))
  = store_writes w
    ++ [(key, VTuple [value; VDateTime (clock w + MINT_DELAY); VBool true],
         MINT_DELAY + MINT_DELAY)]
  ∧ retrieve key (advance d (snd (get key w)))
    = Ret (if d <? MINT_DELAY + MINT_DELAY
           then VTuple [value; VDateTime (clock w + MINT_DELAY); VBool true]
           else VNone).
Proof.
  intros Hr Hlt. rewrite (get_entry _ _ _ _ _ Hr).
  rewrite (proj2 (Z.ltb_lt _ _)) by assumption. cbn [truthy negb andb snd].
  split; [reflexivity | apply retrieve_after_set].
Qed.

(** C5. Every write by [set key value ttl] stores the entry with logical
    expiry [now + ttl] and hands the store the physical TTL
    [ttl + MINT_DELAY]; the logical expiry is therefore no later than the
    physical one, and, nothing else being written, the store answers the
    entry until [ttl + MINT_DELAY] has elapsed and absent once it has. *)
Theorem set_logical_within_physical key value ttl refreshed w d :
  0 <= MINT_DELAY →
  let payload := VTuple [value; VDateTime (clock w + ttl); VBool refreshed] in
  let w1 := snd (set key value ttl refreshed w) in
  entries w1 !! key = Some (payload, clock w + (ttl + MINT_DELAY))
  ∧ store_writes w1 = store_writes w ++ [(key, payload, ttl + MINT_DELAY)]
  ∧ clock w + ttl <= clock w + (ttl + MINT_DELAY)
  ∧ retrieve key (advance d w1)
    = Ret (if d <? ttl + MINT_DELAY then payload else VNone).
Proof.
  intros Hmd payload w1. subst payload w1.
  split; [rewrite set_world; cbn; apply lookup_insert_eq |].
  split; [reflexivity |].
  split; [lia | apply retrieve_after_set].
Qed.

(** C7. Once the first detection of staleness has written the flagged
    placeholder, every later [get key] made before the store evicts the
    placeholder (that is, less than [2 * MINT_DELAY] after the detection)
    returns the stale value, and none of them writes to the store: the
    world after the reads differs from the world after the detection only
    by the time that has passed. *)
Theorem later_gets_serve_stale key w value t delays :
  retrieve key w = Ret (VTuple [value; VDateTime t; VBool false]) →
  t < clock w →
  Forall (λ d, 0 <= d) delays →
  total delays < MINT_DELAY + MINT_DELAY →
  later_gets settings key delays (snd (get key w))
  = (map (λ _, Ret value) delays, advance (total delays) (snd (get key w))).
Proof.
  intros Hr Hlt Hpos Hwin.
  destruct (first_detection_world key w value t Hr Hlt) as [Hk Hc].
  apply later_gets_flagged with (t := clock w + MINT_DELAY)
                                (expires := clock w + (MINT_DELAY + MINT_DELAY));
    [exact Hk | exact Hpos | lia].
Qed.

End guard.

Section wrapper.
Variable settings : Settings.
Variable format : pyval → string.
Abbreviation get := (top_cache.get settings).
Abbreviation set := (top_cache.set settings).
Abbreviation derive_key := (top_cache.derive_key format).
Abbreviation func_wrapper := (top_cache.func_wrapper settings format).

(** [get] never runs the wrapped function. *)
Lemma get_calls key w : calls (snd (get key w)) = calls w.
Proof.
  unfold top_cache.get, mbind, M_bind, bind, cache.get.
  destruct (negb (truthy (cache.visible key w))); [reflexivity |].
  unfold unpack3.
  destruct (iter_items (cache.visible key w)) as [[|a [|b [|c [|? ?]]]]|];
    try reflexivity.
  cbn. unfold datetime_gt. destruct (order_against b); [| reflexivity]. cbn.
  destruct (_ && _); reflexivity.
Qed.


(** On a truthy answer from [get], the wrapper returns it and the wrapped
    function is not run. *)
Lemma func_wrapper_hit timeout decorates_method func args kwargs w rtn :
  fst (get (derive_key decorates_method (func_name func) args kwargs) w) = Ret rtn →
  truthy rtn = true →
  func_wrapper timeout decorates_method func args kwargs w
  = get (derive_key decorates_method (func_name func) args kwargs) w
  ∧ calls (snd (func_wrapper timeout decorates_method func args kwargs w)) = calls w.
Proof.
  intros Hg Ht.
  assert (func_wrapper timeout decorates_method func args kwargs w
          = get (derive_key decorates_method (func_name func) args kwargs) w) as Heq.
  { unfold top_cache.func_wrapper, mbind, M_bind, bind.
    destruct (get _ w) as [[r|e] w'] eqn:Hgw; cbn in Hg; [| discriminate].
    injection Hg as ->. unfold top_cache.get in Hgw. by rewrite Ht. }
  split; [exact Heq |]. rewrite Heq. apply get_calls.
Qed.

(** On a falsy answer from [get] (a miss, or a cached falsy value), the
    wrapper runs the function, stores its result under the derived key with
    the configured timeout, and returns it. *)
Lemma func_wrapper_miss timeout decorates_method func args kwargs w rtn :
  fst (get (derive_key decorates_method (func_name func) args kwargs) w) = Ret rtn →
  truthy rtn = false →
  let key := derive_key decorates_method (func_name func) args kwargs in
  let w1 := snd (get key w) in
  let w2 := snd (call func args kwargs w1) in
  func_wrapper timeout decorates_method func args kwargs w
  = (Ret (func_body func args kwargs),
     snd (set key (func_body func args kwargs) timeout false w2)).
Proof.
  intros Hg Ht. cbn zeta.
  unfold top_cache.func_wrapper, mbind, M_bind, bind.
  destruct (top_cache.get settings _ w) as [[r|e] w'] eqn:Hgw; cbn in Hg; [| discriminate].
  injection Hg as ->. rewrite Ht. reflexivity.
Qed.

End wrapper.

Section keys.
Variable format : pyval → string.
Abbreviation key_body := (top_cache.key_body format).
Abbreviation derive_key := (top_cache.derive_key format).

Lemma append_assoc (a b c : string) : (a +:+ b) +:+ c = a +:+ b +:+ c.
Proof.
  induction a as [|x a IH]; [reflexivity |].
  change (String x ((a +:+ b) +:+ c) = String x (a +:+ b +:+ c)).
  by rewrite IH.
Qed.

Lemma length_append (a b : string) :
  String.length (a +:+ b) = (String.length a + String.length b)%nat.
Proof.
  induction a as [|x a IH]; [reflexivity |].
  change (Datatypes.S (String.length (a +:+ b))
          = Datatypes.S (String.length a + String.length b)).
  by rewrite IH.
Qed.

(** A prefix put in front of the key stays in front while arguments are added. *)
Lemma add_args_prefix prefix args : ∀ cache_key,
  fold_left (top_cache.add_arg format) args (prefix +:+ cache_key)
  = prefix +:+ fold_left (top_cache.add_arg format) args cache_key.
Proof.
  induction args as [|arg args IH]; intros cache_key; [reflexivity |].
  cbn [fold_left]. unfold top_cache.add_arg at 2. by rewrite append_assoc, IH.
Qed.

Lemma add_kwargs_prefix prefix kwargs : ∀ cache_key,
  fold_left (top_cache.add_kwarg format) kwargs (prefix +:+ cache_key)
  = prefix +:+ fold_left (top_cache.add_kwarg format) kwargs cache_key.
Proof.
  induction kwargs as [|kv kwargs IH]; intros cache_key; [reflexivity |].
  cbn [fold_left]. unfold top_cache.add_kwarg at 2. by rewrite append_assoc, IH.
Qed.

Lemma key_body_plain name args kwargs :
  key_body false name args kwargs
  = fold_left (top_cache.add_kwarg format) kwargs
      (fold_left (top_cache.add_arg format) args name).
Proof. unfold top_cache.key_body. by destruct args. Qed.

Lemma key_body_method name self rest kwargs :
  key_body true name (self :: rest) kwargs
  = class_name self +:+ "_" +:+ key_body false name rest kwargs.
Proof.
  rewrite key_body_plain. unfold top_cache.key_body.
  rewrite <- (append_assoc (class_name self) "_" name).
  rewrite add_args_prefix, add_kwargs_prefix. by rewrite append_assoc.
Qed.

Lemma hexchar_is_hexdigit n : is_hexdigit (hashlib.hexchar n) = true.
Proof.
  unfold hashlib.hexchar.
  repeat match goal with
         | |- context [match ?x with _ => _ end] => destruct x
         end; reflexivity.
Qed.

Lemma hex_length bs : String.length (hashlib.hex bs) = (2 * List.length bs)%nat.
Proof. induction bs as [|b bs IH]; cbn in *; lia. Qed.

Lemma hex_is_hex bs : forallb is_hexdigit (list_ascii_of_string (hashlib.hex bs)) = true.
Proof.
  induction bs as [|b bs IH]; [reflexivity |].
  cbn [hashlib.hex list_ascii_of_string forallb].
  by rewrite !hexchar_is_hexdigit, IH.
Qed.

Lemma md5_hexdigest_length s : String.length (hashlib.md5_hexdigest s) = 32%nat.
Proof. unfold hashlib.md5_hexdigest. by rewrite hex_length. Qed.

(** C9. For a fixed function name, positional arguments and keyword
    arguments (in their iteration order) a second run of the key derivation
    gives the same key as the first, and the key is a string of 32
    lower-case hexadecimal digits whatever the arguments and their lengths. *)
Theorem derive_key_deterministic_fixed_length decorates_method name args kwargs :
  let first_run := derive_key decorates_method name args kwargs in
  let second_run := derive_key decorates_method name args kwargs in
  second_run = first_run
  ∧ String.length first_run = 32%nat
  ∧ forallb is_hexdigit (list_ascii_of_string first_run) = true.
Proof.
  cbn zeta. split; [reflexivity |]. split.
  - apply md5_hexdigest_length.
  - apply hex_is_hex.
Qed.

(** C10. For a method call (decorates_method true, at least one positional
    argument) the key body before hashing is the class name of [self], an
    underscore, and the body a plain function call of the same name with the
    remaining arguments would get; it does not change when [self] is
    replaced by another instance of its class, and it differs from that
    plain function body. *)
Theorem method_key_body_prefixed name self rest kwargs :
  key_body true name (self :: rest) kwargs
  = class_name self +:+ "_" +:+ key_body false name rest kwargs
  ∧ key_body true name (self :: rest) kwargs
    = key_body true name (VObj (class_name self) "" :: rest) kwargs
  ∧ key_body true name (self :: rest) kwargs ≠ key_body false name rest kwargs.
Proof.
  split; [apply key_body_method |]. split.
  - by rewrite !key_body_method.
  - rewrite key_body_method. intros Heq.
    apply (f_equal String.length) in Heq.
    rewrite !length_append in Heq. cbn in Heq. lia.
Qed.

End keys.

(** * The properties at concrete inputs *)

Lemma get_stale_refreshed_returns_value_witness :
  retrieve "k" scenario_waiting = Ret (VTuple [VStr "v1"; VDateTime 91; VBool true])
  ∧ 91 < clock scenario_waiting
  ∧ top_cache.get default_settings "k" scenario_waiting
    = (Ret (VStr "v1"), scenario_waiting).
Proof.
  assert (retrieve "k" scenario_waiting
          = Ret (VTuple [VStr "v1"; VDateTime 91; VBool true])) as Hr
    by reflexivity.
  assert (91 < clock scenario_waiting) as Hlt by (vm_compute; reflexivity).
  exact (conj Hr (conj Hlt
    (get_stale_refreshed_returns_value default_settings "k" scenario_waiting
       (VStr "v1") 91 Hr Hlt))).
Defined.

(** C1 as the spec words it fails: forty seconds after the first detection
    the entry is flagged and past its logical expiry, and [get] answers
    ["v1"], not [None]; so it does ten seconds after the detection, where the
    spec's scenario expects absent again. *)
Lemma stale_refreshed_fetch_is_not_absent :
  retrieve "k" scenario_waiting = Ret (VTuple [VStr "v1"; VDateTime 91; VBool true])
  ∧ 91 < clock scenario_waiting
  ∧ fst (top_cache.get default_settings "k" scenario_waiting) = Ret (VStr "v1")
  ∧ fst (top_cache.get default_settings "k" scenario_waiting) ≠ Ret VNone
  ∧ fst (top_cache.get default_settings "k" (advance 10 scenario_flagged))
    = Ret (VStr "v1").
Proof. repeat split; try reflexivity. discriminate. Qed.

Lemma get_stale_unrefreshed_rewrites_witness :
  retrieve "k" scenario_stale = Ret (VTuple [VStr "v1"; VDateTime 60; VBool false])
  ∧ 60 < clock scenario_stale
  ∧ top_cache.get default_settings "k" scenario_stale
    = (Ret VNone, snd (top_cache.set default_settings "k" (VStr "v1") 30 true scenario_stale))
  ∧ store_writes (snd (top_cache.get default_settings "k" scenario_stale))
    = store_writes scenario_stale
      ++ [("k", VTuple [VStr "v1"; VDateTime 91; VBool true], 60)].
Proof.
  assert (retrieve "k" scenario_stale
          = Ret (VTuple [VStr "v1"; VDateTime 60; VBool false])) as Hr
    by reflexivity.
  assert (60 < clock scenario_stale) as Hlt by (vm_compute; reflexivity).
  exact (conj Hr (conj Hlt
    (get_stale_unrefreshed_rewrites default_settings "k" scenario_stale
       (VStr "v1") 60 Hr Hlt))).
Defined.

Lemma get_after_set_fresh_witness :
  0 < 60
  ∧ 0 <= top_cache.MINT_DELAY default_settings
  ∧ top_cache.get default_settings "k" scenario_put = (Ret (VStr "v1"), scenario_put).
Proof.
  assert (0 < 60) as Httl by (vm_compute; reflexivity).
  assert (0 <= top_cache.MINT_DELAY default_settings) as Hmd by (vm_compute; discriminate).
  exact (conj Httl (conj Hmd
    (get_after_set_fresh default_settings "k" (VStr "v1") 60 empty_world Httl Hmd))).
Defined.

Lemma placeholder_physical_ttl_witness :
  store_writes scenario_flagged
  = store_writes scenario_stale ++ [("k", VTuple [VStr "v1"; VDateTime 91; VBool true], 60)]
  ∧ retrieve "k" (advance 60 scenario_flagged) = Ret VNone.
Proof.
  assert (retrieve "k" scenario_stale
          = Ret (VTuple [VStr "v1"; VDateTime 60; VBool false])) as Hr
    by reflexivity.
  assert (60 < clock scenario_stale) as Hlt by (vm_compute; reflexivity).
  exact (placeholder_physical_ttl default_settings "k" scenario_stale
           (VStr "v1") 60 60 Hr Hlt).
Defined.

(** C4 as the spec words it fails: the placeholder reaches the store with
    timeout 60, not the mint delay of 30, and a store-level retrieve 31
    seconds after the first detection still finds it. *)
Lemma placeholder_outlives_one_mint_delay :
  top_cache.MINT_DELAY default_settings = 30
  ∧ store_writes scenario_flagged
    = [("k", VTuple [VStr "v1"; VDateTime 60; VBool false], 90);
       ("k", VTuple [VStr "v1"; VDateTime 91; VBool true], 60)]
  ∧ retrieve "k" (advance 31 scenario_flagged)
    = Ret (VTuple [VStr "v1"; VDateTime 91; VBool true])
  ∧ retrieve "k" (advance 31 scenario_flagged) ≠ Ret VNone.
Proof. repeat split; try reflexivity. discriminate. Qed.

Lemma set_logical_within_physical_witness :
  0 <= top_cache.MINT_DELAY default_settings
  ∧ entries scenario_put !! "k"
    = Some (VTuple [VStr "v1"; VDateTime 60; VBool false], 90)
  ∧ retrieve "k" (advance 90 scenario_put) = Ret VNone.
Proof.
  assert (0 <= top_cache.MINT_DELAY default_settings) as Hmd by (vm_compute; discriminate).
  pose proof (set_logical_within_physical default_settings "k" (VStr "v1") 60 false
                empty_world 90 Hmd) as (Hk & _ & _ & Hgone).
  exact (conj Hmd (conj Hk Hgone)).
Defined.

Lemma later_gets_serve_stale_witness :
  later_gets default_settings "k" [10; 20; 25] scenario_flagged
  = ([Ret (VStr "v1"); Ret (VStr "v1"); Ret (VStr "v1")], advance 55 scenario_flagged).
Proof.
  assert (retrieve "k" scenario_stale
          = Ret (VTuple [VStr "v1"; VDateTime 60; VBool false])) as Hr
    by reflexivity.
  assert (60 < clock scenario_stale) as Hlt by (vm_compute; reflexivity).
  assert (Forall (λ d, 0 <= d) [10; 20; 25]) as Hpos
    by (repeat constructor; vm_compute; discriminate).
  assert (total [10; 20; 25] < top_cache.MINT_DELAY default_settings
                               + top_cache.MINT_DELAY default_settings) as Hwin
    by (vm_compute; reflexivity).
  exact (later_gets_serve_stale default_settings "k" scenario_stale (VStr "v1") 60
           [10; 20; 25] Hr Hlt Hpos Hwin).
Defined.



(** C6 at a function whose result is falsy. After one call the store holds 0
    under the derived key and [get] answers it, yet a second call straight
    after runs the function again and writes the store again. *)
Theorem func_wrapper_recomputes_cached_zero :
  let key := top_cache.derive_key str_scalar false "count" [] [] in
  let second_call :=
    top_cache.func_wrapper default_settings str_scalar 180 false count_func [] []
      count_called_once in
  calls count_called_once = [([], [])]
  ∧ top_cache.get default_settings key count_called_once
    = (Ret (VInt 0), count_called_once)
  ∧ fst second_call = Ret (VInt 0)
  ∧ calls (snd second_call) = [([], []); ([], [])]
  ∧ store_writes (snd second_call)
    = [(key, VTuple [VInt 0; VDateTime 180; VBool false], 210);
       (key, VTuple [VInt 0; VDateTime 180; VBool false], 210)].
Proof. vm_compute. repeat split; reflexivity. Qed.

(** * Further properties of [set] and [get] *)

Section guard_more.
Variable settings : Settings.
Abbreviation MINT_DELAY := (top_cache.MINT_DELAY settings).
Abbreviation set := (top_cache.set settings).
Abbreviation get := (top_cache.get settings).

(** What [get] returns is decided by what the store shows and by the clock. *)
Lemma get_unfold key w :
  get key w =
    let packed_value := cache.visible key w in
    if negb (truthy packed_value) then (Ret VNone, w) else
    match iter_items packed_value with
    | None => (Raise TypeError, w)
    | Some [value; refresh_time; refreshed] =>
        match order_against refresh_time with
        | Some gt =>
            if gt (clock w) && negb (truthy refreshed)
            then (Ret VNone, snd (set key value MINT_DELAY true w))
            else (Ret value, w)
        | None => (Raise TypeError, w)
        end
    | Some _ => (Raise ValueError, w)
    end.
Proof.
  unfold top_cache.get, mbind, M_bind, bind, cache.get. cbn zeta.
  destruct (negb (truthy (cache.visible key w))); [reflexivity |].
  unfold unpack3.
  destruct (iter_items (cache.visible key w)) as [[|a [|b [|c [|? ?]]]]|];
    try reflexivity.
  cbn. unfold datetime_gt. destruct (order_against b); [| reflexivity]. cbn.
  destruct (_ && _); reflexivity.
Qed.

Lemma get_world_cases key w :
  snd (get key w) = w
  ∨ ∃ value, get key w = (Ret VNone, snd (set key value MINT_DELAY true w)).
Proof.
  rewrite get_unfold. cbn zeta.
  destruct (negb (truthy (cache.visible key w))); [by left |].
  destruct (iter_items (cache.visible key w)) as [[|a [|b [|c [|? ?]]]]|];
    try (by left).
  destruct (order_against b); [| by left].
  destruct (_ && _); [right; by eexists | by left].
Qed.

Lemma get_clock key w : clock (snd (get key w)) = clock w.
Proof.
  destruct (get_world_cases key w) as [-> | [value ->]]; reflexivity.
Qed.

Lemma get_invisible key w :
  retrieve key w = Ret VNone →
  get key w = (Ret VNone, w).
Proof.
  intros Hr. unfold retrieve, cache.get in Hr. cbn in Hr. injection Hr as Hr.
  rewrite get_unfold. cbn zeta. by rewrite Hr.
Qed.

Lemma get_after_set_cases key value ttl w d :
  get key (advance d (snd (set key value ttl false w))) =
    if d <? ttl + MINT_DELAY
    then if d <=? ttl
         then (Ret value, advance d (snd (set key value ttl false w)))
         else (Ret VNone,
               snd (set key value MINT_DELAY true
                      (advance d (snd (set key value ttl false w)))))
    else (Ret VNone, advance d (snd (set key value ttl false w))).
Proof.
  pose proof (retrieve_after_set settings key value ttl false w d) as Hr.
  destruct (d <? ttl + MINT_DELAY) eqn:Hphys.
  - rewrite (get_entry _ _ _ _ _ _ Hr). rewrite set_world. cbn [clock snd advance].
    destruct (d <=? ttl) eqn:Hlog.
    + apply Z.leb_le in Hlog. by rewrite (proj2 (Z.ltb_ge _ _)) by lia.
    + apply Z.leb_gt in Hlog. by rewrite (proj2 (Z.ltb_lt _ _)) by lia.
  - by apply get_invisible.
Qed.

(** X1. A key the store does not show (never written, or past its physical
    expiry) reads as [None], and the read changes nothing. *)
Theorem get_absent key w :
  retrieve key w = Ret VNone →
  get key w = (Ret VNone, w).
Proof. apply get_invisible. Qed.

(** X2. An entry whose logical expiry has not passed ([now <= logical_expiry])
    is served as it is, whatever its flag, and the read changes nothing. *)
Theorem get_fresh key w value t refreshed :
  retrieve key w = Ret (VTuple [value; VDateTime t; refreshed]) →
  clock w <= t →
  get key w = (Ret value, w).
Proof.
  intros Hr Hle. rewrite (get_entry _ _ _ _ _ _ Hr).
  by rewrite (proj2 (Z.ltb_ge _ _)) by assumption.
Qed.

(** X3. The life of an entry after [set key value ttl], read [d] seconds
    later with nothing written in between: up to [ttl] the value is served
    and nothing changes; after [ttl] and before [ttl + MINT_DELAY] the reader
    gets [None] and the flagged placeholder is written; from
    [ttl + MINT_DELAY] on the reader gets [None] and nothing changes. *)
Theorem get_after_set_timeline key value ttl w d :
  let later := advance d (snd (set key value ttl false w)) in
  get key later =
    if d <? ttl + MINT_DELAY
    then if d <=? ttl
         then (Ret value, later)
         else (Ret VNone, snd (set key value MINT_DELAY true later))
    else (Ret VNone, later).
Proof. cbn zeta. apply get_after_set_cases. Qed.

(** X4. A [get] changes the world in one way at most: it writes, under its
    own key and with the flag set, an entry whose logical life is
    [MINT_DELAY] and whose physical TTL is [2 * MINT_DELAY], and then it
    returns [None]. It never moves the clock and never runs a wrapped
    function. *)
Theorem get_writes_at_most_placeholder key w :
  clock (snd (get key w)) = clock w
  ∧ calls (snd (get key w)) = calls w
  ∧ (snd (get key w) = w
     ∨ ∃ value,
         fst (get key w) = Ret VNone
         ∧ entries (snd (get key w))
           = <[key := (VTuple [value; VDateTime (clock w + MINT_DELAY); VBool true],
                       clock w + (MINT_DELAY + MINT_DELAY))]> (entries w)
         ∧ store_writes (snd (get key w))
           = store_writes w
             ++ [(key, VTuple [value; VDateTime (clock w + MINT_DELAY); VBool true],
                  MINT_DELAY + MINT_DELAY)]).
Proof.
  split; [apply get_clock |].
  destruct (get_world_cases key w) as [Hw | [value Hw]].
  - rewrite Hw. split; [reflexivity | by left].
  - rewrite Hw. split; [reflexivity |]. right. exists value.
    rewrite set_world. cbn. done.
Qed.

End guard_more.

(** * The store as [set] leaves it *)

Section store_invariant.
Variable settings : Settings.
Abbreviation MINT_DELAY := (top_cache.MINT_DELAY settings).
Abbreviation set := (top_cache.set settings).
Abbreviation get := (top_cache.get settings).

Lemma store_inv_set_world key value ttl refreshed w :
  store_inv settings w → store_inv settings (snd (set key value ttl refreshed w)).
Proof.
  intros Hinv. rewrite set_world. unfold store_inv. cbn.
  apply map_Forall_insert_2; [| exact Hinv].
  cbn. apply Z.eqb_eq. lia.
Qed.

Lemma store_inv_visible key w :
  store_inv settings w →
  cache.visible key w = VNone
  ∨ ∃ value t refreshed, cache.visible key w = VTuple [value; VDateTime t; VBool refreshed].
Proof.
  intros Hinv. unfold cache.visible.
  destruct (entries w !! key) as [[payload expires]|] eqn:Hk; [| by left].
  destruct (clock w <? expires); [| by left].
  specialize (Hinv key _ Hk). cbn in Hinv.
  repeat match type of Hinv with
         | context [match ?x with _ => _ end] => destruct x; try discriminate
         end.
  right. do 3 eexists. reflexivity.
Qed.

Lemma store_inv_get_world key w :
  store_inv settings w →
  (∃ v, fst (get key w) = Ret v) ∧ store_inv settings (snd (get key w)).
Proof.
  intros Hinv. split.
  - rewrite get_unfold. cbn zeta.
    destruct (store_inv_visible key w Hinv) as [-> | (value & t & r & ->)].
    + by eexists.
    + cbn. destruct (_ && _); by eexists.
  - destruct (get_world_cases settings key w) as [-> | [value ->]]; [exact Hinv |].
    by apply store_inv_set_world.
Qed.

(** X6. [set] keeps the store well formed: if every entry is a
    [(value, logical_expiry, flag)] tuple that the store drops [MINT_DELAY]
    after its logical expiry, so is every entry after the write. *)
Theorem set_keeps_store_inv key value ttl refreshed w :
  store_inv settings w → store_inv settings (snd (set key value ttl refreshed w)).
Proof. apply store_inv_set_world. Qed.

(** X7. On a store that only [set] has written to, [get] never raises,
    whatever the key and the time, and it leaves such a store behind. *)
Theorem get_total_on_own_store key w d :
  store_inv settings w →
  (∃ v, fst (get key (advance d w)) = Ret v)
  ∧ store_inv settings (snd (get key (advance d w))).
Proof. intros Hinv. by apply store_inv_get_world. Qed.

End store_invariant.

(** * The decorator over time *)

Section wrapper_more.
Variable settings : Settings.
Variable format : pyval → string.
Abbreviation MINT_DELAY := (top_cache.MINT_DELAY settings).
Abbreviation set := (top_cache.set settings).
Abbreviation get := (top_cache.get settings).
Abbreviation derive_key := (top_cache.derive_key format).
Abbreviation func_wrapper := (top_cache.func_wrapper settings format).

Variable timeout : Z.
Variable decorates_method : bool.
Variable func : pyfunc.
Variable args : list pyval.
Variable kwargs : list (string * pyval).

Abbreviation key := (derive_key decorates_method (func_name func) args kwargs).
Abbreviation result := (func_body func args kwargs).
Abbreviation wrapped := (func_wrapper timeout decorates_method func args kwargs).

(** The world a call leaves when [get] had nothing truthy to offer. *)
Lemma wrapped_miss_world w rtn :
  fst (get key w) = Ret rtn →
  truthy rtn = false →
  wrapped w
  = (Ret result, snd (set key result timeout false (snd (call func args kwargs (snd (get key w))))))
  ∧ clock (snd (wrapped w)) = clock w
  ∧ calls (snd (wrapped w)) = calls w ++ [(args, kwargs)].
Proof.
  intros Hg Ht.
  pose proof (func_wrapper_miss settings format timeout decorates_method func args
                kwargs w rtn Hg Ht) as Hm.
  cbn zeta in Hm. rewrite Hm. split; [reflexivity |].
  rewrite set_world. cbn. by rewrite get_clock, get_calls.
Qed.

(** The first call's world is a [set] world, so the timeline of [set] applies. *)
Lemma wrapped_then_get w rtn :
  fst (get key w) = Ret rtn →
  truthy rtn = false →
  ∃ w0, snd (wrapped w) = snd (set key result timeout false w0)
        ∧ clock w0 = clock w.
Proof.
  intros Hg Ht. destruct (wrapped_miss_world w rtn Hg Ht) as (-> & _ & _).
  eexists. split; [reflexivity |]. cbn. apply get_clock.
Qed.

(** X9. Memoisation: when a call found nothing in the cache and the function
    returned a truthy result, a call with the same arguments [d] seconds
    later, [d] within the timeout, returns that result from the cache: the
    function is not run again and nothing is written. *)
Theorem wrapped_second_call_cached w rtn d :
  fst (get key w) = Ret rtn →
  truthy rtn = false →
  truthy result = true →
  d <= timeout →
  d < timeout + MINT_DELAY →
  wrapped (advance d (snd (wrapped w))) = (Ret result, advance d (snd (wrapped w)))
  ∧ calls (snd (wrapped w)) = calls w ++ [(args, kwargs)].
Proof.
  intros Hg Ht Hres Hd Hphys.
  destruct (wrapped_miss_world w rtn Hg Ht) as (Hw & _ & Hcalls).
  split; [| exact Hcalls].
  destruct (wrapped_then_get w rtn Hg Ht) as (w0 & Hw0 & _).
  assert (get key (advance d (snd (wrapped w)))
          = (Ret result, advance d (snd (wrapped w)))) as Hget.
  { rewrite Hw0, get_after_set_cases.
    rewrite (proj2 (Z.ltb_lt _ _)) by assumption.
    by rewrite (proj2 (Z.leb_le _ _)) by assumption. }
  destruct (func_wrapper_hit settings format timeout decorates_method func args kwargs
              (advance d (snd (wrapped w))) result) as [-> _];
    [by rewrite Hget | exact Hres | exact Hget].
Qed.

(** X10. Refresh: when the same call comes after the timeout but within the
    mint delay, the function is run once more, its result is returned, and
    the store holds it again as a fresh, unflagged entry with the full
    timeout ahead of it. *)
Theorem wrapped_call_after_timeout_refreshes w rtn d :
  fst (get key w) = Ret rtn →
  truthy rtn = false →
  timeout < d →
  d < timeout + MINT_DELAY →
  fst (wrapped (advance d (snd (wrapped w)))) = Ret result
  ∧ calls (snd (wrapped (advance d (snd (wrapped w)))))
    = calls w ++ [(args, kwargs); (args, kwargs)]
  ∧ entries (snd (wrapped (advance d (snd (wrapped w))))) !! key
    = Some (VTuple [result; VDateTime (clock w + d + timeout); VBool false],
            clock w + d + (timeout + MINT_DELAY)).
Proof.
  intros Hg Ht Hd Hphys.
  destruct (wrapped_miss_world w rtn Hg Ht) as (_ & _ & Hcalls).
  destruct (wrapped_then_get w rtn Hg Ht) as (w0 & Hw0 & Hc0).
  assert (fst (get key (advance d (snd (wrapped w)))) = Ret VNone) as Hget.
  { rewrite Hw0, get_after_set_cases.
    rewrite (proj2 (Z.ltb_lt _ _)) by assumption.
    by rewrite (proj2 (Z.leb_gt _ _)) by assumption. }
  destruct (wrapped_miss_world (advance d (snd (wrapped w))) VNone Hget eq_refl)
    as (Hw2 & Hclock2 & Hcalls2).
  split; [by rewrite Hw2 |]. split.
  - rewrite Hcalls2. cbn [calls advance]. rewrite Hcalls, <- app_assoc. reflexivity.
  - rewrite Hw2. cbn [snd]. rewrite set_world. cbn [snd entries].
    rewrite lookup_insert_eq. unfold call. cbn [snd clock].
    rewrite get_clock. cbn [clock advance].
    destruct (wrapped_miss_world w rtn Hg Ht) as (_ & -> & _). reflexivity.
Qed.

(** X11. A falsy result is never served from the cache: when the function
    returns a falsy value (0, an empty string or list, [False], [None]), a
    second call with the same arguments runs the function again, however
    soon or late it comes after the first. *)
Theorem wrapped_falsy_result_recomputed w rtn d :
  fst (get key w) = Ret rtn →
  truthy rtn = false →
  truthy result = false →
  fst (wrapped (advance d (snd (wrapped w)))) = Ret result
  ∧ calls (snd (wrapped (advance d (snd (wrapped w)))))
    = calls w ++ [(args, kwargs); (args, kwargs)].
Proof.
  intros Hg Ht Hres.
  destruct (wrapped_miss_world w rtn Hg Ht) as (_ & _ & Hcalls).
  destruct (wrapped_then_get w rtn Hg Ht) as (w0 & Hw0 & _).
  assert (∃ r, fst (get key (advance d (snd (wrapped w)))) = Ret r
               ∧ truthy r = false) as (r & Hget & Hr).
  { rewrite Hw0, get_after_set_cases.
    destruct (d <? timeout + MINT_DELAY); [destruct (d <=? timeout) |];
      eexists; (split; [reflexivity | done]). }
  destruct (wrapped_miss_world (advance d (snd (wrapped w))) r Hget Hr)
    as (Hw2 & _ & Hcalls2).
  split; [by rewrite Hw2 |].
  rewrite Hcalls2. cbn [calls advance]. rewrite Hcalls, <- app_assoc. reflexivity.
Qed.

End wrapper_more.

(** * The shape of the key body *)

Section keys_more.
Variable format : pyval → string.
Abbreviation key_body := (top_cache.key_body format).
Abbreviation derive_key := (top_cache.derive_key format).

Lemma append_empty_r (s : string) : s +:+ "" = s.
Proof.
  induction s as [|x s IH]; [reflexivity |].
  change (String x (s +:+ "") = String x s). by rewrite IH.
Qed.

Lemma add_args_rendered args : ∀ cache_key,
  fold_left (top_cache.add_arg format) args cache_key
  = cache_key +:+ rendered_args format args.
Proof.
  induction args as [|arg args IH]; intros cache_key.
  - cbn. by rewrite append_empty_r.
  - cbn [fold_left rendered_args fold_right]. rewrite IH.
    unfold top_cache.add_arg. by rewrite !append_assoc.
Qed.

Lemma add_kwargs_rendered kwargs : ∀ cache_key,
  fold_left (top_cache.add_kwarg format) kwargs cache_key
  = cache_key +:+ rendered_kwargs format kwargs.
Proof.
  induction kwargs as [|kv kwargs IH]; intros cache_key.
  - cbn. by rewrite append_empty_r.
  - cbn [fold_left rendered_kwargs fold_right]. rewrite IH.
    unfold top_cache.add_kwarg. by rewrite !append_assoc.
Qed.

Lemma key_body_plain_rendered name args kwargs :
  key_body false name args kwargs
  = name +:+ rendered_args format args +:+ rendered_kwargs format kwargs.
Proof.
  rewrite key_body_plain, add_kwargs_rendered, add_args_rendered.
  by rewrite append_assoc.
Qed.

Lemma rendered_args_app args1 args2 :
  rendered_args format (args1 ++ args2)
  = rendered_args format args1 +:+ rendered_args format args2.
Proof.
  induction args1 as [|arg args1 IH]; [reflexivity |].
  cbn [app rendered_args fold_right]. fold (rendered_args format (args1 ++ args2)).
  fold (rendered_args format args1). by rewrite IH, !append_assoc.
Qed.

(** X12. The key body is the function name followed by one ["_" + str(arg)]
    per positional argument, in order, and then one ["_" + name + "=" +
    str(value)] per keyword argument, in iteration order. For a method the
    class name of [self] and an underscore come first and [self] is left
    out; with no positional argument at all, decorates_method changes
    nothing. *)
Theorem key_body_rendered name self args kwargs :
  key_body false name args kwargs
  = name +:+ rendered_args format args +:+ rendered_kwargs format kwargs
  ∧ key_body true name (self :: args) kwargs
    = class_name self +:+ "_" +:+ name
      +:+ rendered_args format args +:+ rendered_kwargs format kwargs
  ∧ key_body true name [] kwargs = name +:+ rendered_kwargs format kwargs.
Proof.
  split; [apply key_body_plain_rendered |]. split.
  - by rewrite key_body_method, key_body_plain_rendered.
  - unfold top_cache.key_body. cbn [fold_left]. apply add_kwargs_rendered.
Qed.

(** X13. Keys are not injective in the arguments: one positional argument
    whose text is the texts of two others joined by an underscore gives the
    same key as those two in its place, so the two calls share a cache
    entry. *)
Theorem split_argument_same_key name front x a b rest kwargs :
  format x = format a +:+ "_" +:+ format b →
  key_body false name (front ++ x :: rest) kwargs
  = key_body false name (front ++ a :: b :: rest) kwargs
  ∧ derive_key false name (front ++ x :: rest) kwargs
    = derive_key false name (front ++ a :: b :: rest) kwargs.
Proof.
  intros Hx.
  assert (key_body false name (front ++ x :: rest) kwargs
          = key_body false name (front ++ a :: b :: rest) kwargs) as Hbody.
  { rewrite !key_body_plain_rendered, !rendered_args_app. do 2 f_equal.
    f_equal. cbn [rendered_args fold_right]. rewrite Hx. by rewrite !append_assoc. }
  split; [exact Hbody |]. unfold top_cache.derive_key. by rewrite Hbody.
Qed.

(** X14. A last positional argument whose text reads [name=value] gives the
    same key as passing that value as the first keyword argument [name]. *)
Theorem positional_as_keyword_same_key name args x k v kwargs :
  format x = k +:+ "=" +:+ format v →
  key_body false name (args ++ [x]) kwargs
  = key_body false name args ((k, v) :: kwargs)
  ∧ derive_key false name (args ++ [x]) kwargs
    = derive_key false name args ((k, v) :: kwargs).
Proof.
  intros Hx.
  assert (key_body false name (args ++ [x]) kwargs
          = key_body false name args ((k, v) :: kwargs)) as Hbody.
  { rewrite !key_body_plain_rendered, rendered_args_app. f_equal.
    cbn [rendered_args rendered_kwargs fold_right fst snd].
    rewrite Hx. by rewrite !append_assoc. }
  split; [exact Hbody |]. unfold top_cache.derive_key. by rewrite Hbody.
Qed.

(** X15. A method [name] of class [C], wrapped with decorates_method, gets the
    key of a plain wrapped function called [C_name] with the same remaining
    arguments. *)
Theorem method_same_key_as_prefixed_function name self rest kwargs :
  key_body true name (self :: rest) kwargs
  = key_body false (class_name self +:+ "_" +:+ name) rest kwargs
  ∧ derive_key true name (self :: rest) kwargs
    = derive_key false (class_name self +:+ "_" +:+ name) rest kwargs.
Proof.
  assert (key_body true name (self :: rest) kwargs
          = key_body false (class_name self +:+ "_" +:+ name) rest kwargs) as Hbody.
  { rewrite key_body_method, !key_body_plain_rendered. by rewrite !append_assoc. }
  split; [exact Hbody |]. unfold top_cache.derive_key. by rewrite Hbody.
Qed.

End keys_more.

(** * The further properties at concrete inputs *)

Lemma store_inv_scenario_stale : store_inv default_settings scenario_stale.
Proof.
  apply (store_inv_set_world default_settings "k" (VStr "v1") 60 false empty_world).
  apply map_Forall_empty.
Qed.

Lemma get_absent_witness :
  retrieve "k" empty_world = Ret VNone
  ∧ top_cache.get default_settings "k" empty_world = (Ret VNone, empty_world).
Proof.
  assert (retrieve "k" empty_world = Ret VNone) as Hr by reflexivity.
  exact (conj Hr (get_absent default_settings "k" empty_world Hr)).
Defined.

Lemma get_fresh_witness :
  retrieve "k" (advance 60 scenario_put)
  = Ret (VTuple [VStr "v1"; VDateTime 60; VBool false])
  ∧ clock (advance 60 scenario_put) <= 60
  ∧ top_cache.get default_settings "k" (advance 60 scenario_put)
    = (Ret (VStr "v1"), advance 60 scenario_put).
Proof.
  assert (retrieve "k" (advance 60 scenario_put)
          = Ret (VTuple [VStr "v1"; VDateTime 60; VBool false])) as Hr
    by reflexivity.
  assert (clock (advance 60 scenario_put) <= 60) as Hle
    by (vm_compute; discriminate).
  exact (conj Hr (conj Hle
    (get_fresh default_settings "k" (advance 60 scenario_put) (VStr "v1") 60
       (VBool false) Hr Hle))).
Defined.

Lemma set_keeps_store_inv_witness :
  store_inv default_settings
    (snd (top_cache.set default_settings "j" (VInt 7) 60 false scenario_stale)).
Proof.
  exact (set_keeps_store_inv default_settings "j" (VInt 7) 60 false scenario_stale
           store_inv_scenario_stale).
Defined.

Lemma get_total_on_own_store_witness :
  (∃ v, fst (top_cache.get default_settings "k" (advance 10 scenario_stale)) = Ret v)
  ∧ store_inv default_settings
      (snd (top_cache.get default_settings "k" (advance 10 scenario_stale))).
Proof.
  exact (get_total_on_own_store default_settings "k" scenario_stale 10
           store_inv_scenario_stale).
Defined.

Lemma wrapped_second_call_cached_witness :
  let first_call :=
    snd (top_cache.func_wrapper default_settings str_scalar 180 false
           answer_func [] [] empty_world) in
  top_cache.func_wrapper default_settings str_scalar 180 false answer_func [] []
    (advance 100 first_call)
  = (Ret (VInt 42), advance 100 first_call)
  ∧ calls first_call = [([], [])].
Proof.
  assert (fst (top_cache.get default_settings
                 (top_cache.derive_key str_scalar false "answer" [] []) empty_world)
          = Ret VNone) as Hg by (vm_compute; reflexivity).
  assert (100 <= 180) as Hd by (vm_compute; discriminate).
  assert (100 < 180 + top_cache.MINT_DELAY default_settings) as Hp
    by (vm_compute; reflexivity).
  exact (wrapped_second_call_cached default_settings str_scalar 180 false answer_func
           [] [] empty_world VNone 100 Hg eq_refl eq_refl Hd Hp).
Defined.

Lemma wrapped_call_after_timeout_refreshes_witness :
  let first_call :=
    snd (top_cache.func_wrapper default_settings str_scalar 180 false
           answer_func [] [] empty_world) in
  let second_call :=
    top_cache.func_wrapper default_settings str_scalar 180 false answer_func [] []
      (advance 200 first_call) in
  fst second_call = Ret (VInt 42)
  ∧ calls (snd second_call) = [([], []); ([], [])]
  ∧ entries (snd second_call) !! top_cache.derive_key str_scalar false "answer" [] []
    = Some (VTuple [VInt 42; VDateTime 380; VBool false], 410).
Proof.
  assert (fst (top_cache.get default_settings
                 (top_cache.derive_key str_scalar false "answer" [] []) empty_world)
          = Ret VNone) as Hg by (vm_compute; reflexivity).
  assert (180 < 200) as Hd by (vm_compute; reflexivity).
  assert (200 < 180 + top_cache.MINT_DELAY default_settings) as Hp
    by (vm_compute; reflexivity).
  exact (wrapped_call_after_timeout_refreshes default_settings str_scalar 180 false
           answer_func [] [] empty_world VNone 200 Hg eq_refl Hd Hp).
Defined.

Lemma wrapped_falsy_result_recomputed_witness :
  let first_call :=
    snd (top_cache.func_wrapper default_settings str_scalar 180 false
           count_func [] [] empty_world) in
  let second_call :=
    top_cache.func_wrapper default_settings str_scalar 180 false count_func [] []
      (advance 5 first_call) in
  fst second_call = Ret (VInt 0)
  ∧ calls (snd second_call) = [([], []); ([], [])].
Proof.
  assert (fst (top_cache.get default_settings
                 (top_cache.derive_key str_scalar false "count" [] []) empty_world)
          = Ret VNone) as Hg by (vm_compute; reflexivity).
  exact (wrapped_falsy_result_recomputed default_settings str_scalar 180 false
           count_func [] [] empty_world VNone 5 Hg eq_refl eq_refl).
Defined.

Lemma split_argument_same_key_witness :
  str_scalar (VStr "a_b") = str_scalar (VStr "a") +:+ "_" +:+ str_scalar (VStr "b")
  ∧ top_cache.derive_key str_scalar false "lookup" [VStr "a_b"] []
    = top_cache.derive_key str_scalar false "lookup" [VStr "a"; VStr "b"] [].
Proof.
  assert (str_scalar (VStr "a_b")
          = str_scalar (VStr "a") +:+ "_" +:+ str_scalar (VStr "b")) as Hx
    by reflexivity.
  exact (conj Hx (proj2
    (split_argument_same_key str_scalar "lookup" [] (VStr "a_b") (VStr "a") (VStr "b")
       [] [] Hx))).
Defined.

Lemma positional_as_keyword_same_key_witness :
  str_scalar (VStr "page=2") = "page" +:+ "=" +:+ str_scalar (VInt 2)
  ∧ top_cache.derive_key str_scalar false "lookup" [VStr "news"; VStr "page=2"] []
    = top_cache.derive_key str_scalar false "lookup" [VStr "news"] [("page", VInt 2)].
Proof.
  assert (str_scalar (VStr "page=2") = "page" +:+ "=" +:+ str_scalar (VInt 2)) as Hx
    by (vm_compute; reflexivity).
  exact (conj Hx (proj2
    (positional_as_keyword_same_key str_scalar "lookup" [VStr "news"] (VStr "page=2")
       "page" (VInt 2) [] Hx))).
Defined.
